(** * PLUMESCAPE: the landing-pad trade study of [LCA.py]

    A shallow embedding of the classes [LandingPad] and [TradeStudy] of
    [src/LCA.py], and the properties of the sweep [run_full_study].

    Numbers.  The classes are duck-typed: they apply [*], [/] and [**2]
    to whatever numbers they are given.  The embedding is therefore
    written once, over an interface [Number] of these operators, each of
    which may raise.  Two instances are given: [Binary64], the Python
    [float] (IEEE 754 binary64, each operation rounded, [/] raising
    [ZeroDivisionError] and [**] raising [OverflowError]), and
    [Fraction], the exact rationals of [fractions.Fraction]; what is
    proved for every [Number] holds for any other type of numbers.  The
    script mixes [float] and small [int] literals: an [int] that meets a
    [float] is converted to it, and on the integers of the script (at
    most 3500000) the integer operations [70**2] and [120 / 18] return
    the numbers that the float operations return on the converted
    values, so the sample configuration is written in floats. *)

From Stdlib Require Import String Arith ZArith QArith Qcanon List Lia Floats.
Import ListNotations.

Set Warnings "-inexact-float".

(** ** Python values and exceptions *)

Module Py.

(** The exceptions that the modelled code and its library calls raise. *)
Inductive exception : Type :=
| ZeroDivisionError
| OverflowError
| ValueError
| RuntimeError.

(** The outcome of a call: a returned value or a propagating exception. *)
Inductive result (A : Type) : Type :=
| Ok (v : A)
| Raise (e : exception).

Arguments Ok {A} v.
Arguments Raise {A} e.

Definition bind {A B : Type} (m : result A) (k : A -> result B) : result B :=
  match m with
  | Ok v => k v
  | Raise e => Raise e
  end.

(** [for x in xs: body], where the body updates the local state [s];
    an exception in the body leaves the loop and discards the state. *)
Fixpoint for_each {A S : Type} (xs : list A) (body : A -> S -> result S)
         (s : S) : result S :=
  match xs with
  | [] => Ok s
  | x :: xs' => bind (body x s) (for_each xs' body)
  end.

End Py.

Import Py.

Notation "x <- m ;; k" := (bind m (fun x => k))
  (at level 61, m at next level, right associativity).

(** ** Python numbers *)

(** The operators that the classes apply to their numbers: [x * y],
    [x / y], [x ** 2] and the test [x == 0] that division makes. *)
Class Number (num : Type) : Type := {
  py_mul : num -> num -> result num;
  py_truediv : num -> num -> result num;
  py_pow2 : num -> result num;
  py_is_zero : num -> bool
}.

(** What Python's numbers have in common at zero: dividing by a number
    equal to 0 raises [ZeroDivisionError], and the square of such a
    number is returned and is equal to 0. *)
Class NumberLaws (num : Type) {N : Number num} : Prop := {
  truediv_by_zero :
    forall x y, py_is_zero y = true -> py_truediv x y = Raise ZeroDivisionError;
  pow2_of_zero :
    forall x, py_is_zero x = true ->
              exists y, py_pow2 x = Ok y /\ py_is_zero y = true
}.

(** [fractions.Fraction]: exact arithmetic; only the division by zero
    raises. *)
#[export] Instance Fraction : Number Qc := {|
  py_mul x y := Ok (x * y)%Qc;
  py_truediv x y :=
    if Qc_eq_dec y 0%Qc then Raise ZeroDivisionError else Ok (x / y)%Qc;
  py_pow2 x := Ok (x ^ 2)%Qc;
  py_is_zero x := if Qc_eq_dec x 0%Qc then true else false
|}.

(** [float_pow(x, 2.0)] of CPython: NaN and the infinities are returned
    as they are (the infinities as [+inf]), a zero gives [0.0], and for
    the other values the result of C's [pow] is returned unless it is
    infinite, which raises [OverflowError]; an underflow to [0.0] is not
    an error.  C's [pow(x, 2.0)] is taken to be the correctly rounded
    product [x * x]. *)
Definition float_pow2 (x : float) : result float :=
  if is_nan x then Ok x
  else if is_infinity x then Ok infinity
  else if (x =? 0)%float then Ok 0%float
  else let r := (x * x)%float in
       if is_infinity r then Raise OverflowError else Ok r.

(** [float]: every operation is rounded to binary64; [*] never raises,
    [/] raises exactly on a divisor equal to [0.0] and otherwise follows
    IEEE 754 (so it can return an infinity or a NaN). *)
#[export] Instance Binary64 : Number float := {|
  py_mul x y := Ok (x * y)%float;
  py_truediv x y :=
    if (y =? 0)%float then Raise ZeroDivisionError else Ok (x / y)%float;
  py_pow2 := float_pow2;
  py_is_zero x := (x =? 0)%float
|}.


(** ** class LandingPad *)

Record LandingPad (num : Type) : Type := mkLandingPad {
  name : string;
  dust_coeff : num;            (* kg/m2/kN/m *)
  erosion_coeff : num;         (* cm/kN *)
  construction_cost : num;     (* $ *)
  maintenance_interval : num   (* months *)
}.

Arguments mkLandingPad {num} _ _ _ _ _.
Arguments name {num} _.
Arguments dust_coeff {num} _.
Arguments erosion_coeff {num} _.
Arguments construction_cost {num} _.
Arguments maintenance_interval {num} _.

(** ** class TradeStudy *)

Record TradeStudy (num : Type) : Type := mkTradeStudy {
  pads : list (LandingPad num);
  vehicle_thrust : num;     (* kN *)
  lifetime_months : num     (* months *)
}.

Arguments mkTradeStudy {num} _ _ _.
Arguments pads {num} _.
Arguments vehicle_thrust {num} _.
Arguments lifetime_months {num} _.

(** The dictionary appended to [results] for one point of the grid.  Its
    five keys are fixed, so it is a record; the fields stand for the keys
    ['Pad'], ['Solar_Distance (m)'], ['Frequency (landings/month)'],
    ['Dust_Solar (kg/m2/month)'] and ['Erosion (cm/month)']. *)
Record Row (num : Type) : Type := mkRow {
  Pad : string;
  Solar_Distance : num;
  Frequency : num;
  Dust_Solar : num;
  Erosion : num
}.

Arguments mkRow {num} _ _ _ _ _.
Arguments Pad {num} _.
Arguments Solar_Distance {num} _.
Arguments Frequency {num} _.
Arguments Dust_Solar {num} _.
Arguments Erosion {num} _.

(** The arguments of one call
    [ax.plot_trisurf(solar_distances, frequencies, dust_solar,
    label=pad.name, alpha=0.7)]; [np.array] keeps the elements and their
    order. *)
Record Surface (num : Type) : Type := mkSurface {
  surface_x : list num;     (* solar_distances *)
  surface_y : list num;     (* frequencies *)
  surface_z : list num;     (* dust_solar *)
  label : string
}.

Arguments mkSurface {num} _ _ _ _.
Arguments surface_x {num} _.
Arguments surface_y {num} _.
Arguments surface_z {num} _.
Arguments label {num} _.

Section Model.
Context {num : Type} {N : Number num}.

(** [return self.dust_coeff * thrust / distance**2]: the product, then
    the square, then the quotient. *)
Definition calculate_dust_deposition (self : LandingPad num)
           (thrust distance : num) : result num :=
  product <- py_mul (dust_coeff self) thrust ;;
  square <- py_pow2 distance ;;
  py_truediv product square.

(** [return self.erosion_coeff * thrust] *)
Definition calculate_erosion (self : LandingPad num) (thrust : num)
  : result num :=
  py_mul (erosion_coeff self) thrust.


(** [run_full_study]: the three nested loops over the local list
    [results]; [results.append(r)] is [results ++ [r]]. *)
Definition run_full_study (self : TradeStudy num)
           (distances frequencies : list num) : result (list (Row num)) :=
  let results := [] in
  for_each (pads self) (fun pad results =>
    for_each distances (fun solar_distance results =>
      for_each frequencies (fun freq results =>
        dust <- calculate_dust_deposition pad (vehicle_thrust self) solar_distance ;;
        dust_solar <- py_mul dust freq ;;
        erosion_per_landing <- calculate_erosion pad (vehicle_thrust self) ;;
        erosion_per_month <- py_mul erosion_per_landing freq ;;
        Ok (results ++ [ {| Pad := name pad;
                            Solar_Distance := solar_distance;
                            Frequency := freq;
                            Dust_Solar := dust_solar;
                            Erosion := erosion_per_month |} ]))
      results)
    results)
  results.

(** [plot_3d_results], up to the end of its loop.  For each pad, in
    order, the inner loop fills three lists from the rows whose ['Pad']
    equals the name of the pad, and [ax.plot_trisurf] is called on them.
    The call belongs to matplotlib: [trisurf_error] stands for its
    verdict on the data it is given (it raises [ValueError] or
    [RuntimeError] on some, as on fewer than three points), and the axes
    are the list of the surfaces drawn so far.  An exception of the call
    leaves the loop, so that the later pads are not drawn.  The titles,
    the legend and [savefig] that follow the loop are not modelled. *)
Variable trisurf_error : Surface num -> option exception.

Definition plot_trisurf (ax : list (Surface num)) (s : Surface num)
  : result (list (Surface num)) :=
  match trisurf_error s with
  | Some e => Raise e
  | None => Ok (ax ++ [s])
  end.

Definition plot_3d_results (self : TradeStudy num) (results : list (Row num))
  : result (list (Surface num)) :=
  let ax := [] in
  for_each (pads self) (fun pad ax =>
    let '(solar_distances, frequencies, dust_solar) :=
      fold_left (fun lists result =>
        let '(solar_distances, frequencies, dust_solar) := lists in
        if String.eqb (Pad result) (name pad)
        then (solar_distances ++ [Solar_Distance result],
              frequencies ++ [Frequency result],
              dust_solar ++ [Dust_Solar result])
        else (solar_distances, frequencies, dust_solar))
      results ([], [], []) in
    plot_trisurf ax {| surface_x := solar_distances;
                       surface_y := frequencies;
                       surface_z := dust_solar;
                       label := name pad |})
  ax.

End Model.

(** ** The sample configuration of the script, in floats *)

Definition BRP : LandingPad float :=
  mkLandingPad "Bare Regolith Pad (BRP)" 0.02%float 0.1%float 500000%float 1%float.
Definition HSP : LandingPad float :=
  mkLandingPad "Hardened Surface Pad (HSP)" 0.01%float 0.05%float 2000000%float 6%float.
Definition BP : LandingPad float :=
  mkLandingPad "Bermed Pad (BP)" 0.005%float 0.05%float 2500000%float 12%float.
Definition HMP : LandingPad float :=
  mkLandingPad "Hybrid Multi-Layer Pad (HMP)" 0.003%float 0.02%float 3500000%float 18%float.

Definition sample_study : TradeStudy float :=
  mkTradeStudy [BRP; HSP; BP; HMP] 40%float 120%float.
Definition sample_distances : list float := [30; 40; 50; 60; 70]%float.
Definition sample_frequencies : list float := [5; 10; 15; 20]%float.

(** A sample in exact arithmetic, and variations used as examples: a
    study where two pads share a name, a pad stripped of its cost and
    maintenance interval, and a plotting library that draws whatever it
    is given or nothing with fewer than three points. *)
Definition frac (n : Z) (d : positive) : Qc := Q2Qc (n # d).

Definition BRP_exact : LandingPad Qc :=
  mkLandingPad "Bare Regolith Pad (BRP)" (frac 2 100) (frac 1 10)
               (frac 500000 1) (frac 1 1).

Definition two_pads : TradeStudy float := mkTradeStudy [BRP; HSP] 40%float 120%float.
Definition twins : TradeStudy float := mkTradeStudy [BRP; HSP; BRP] 40%float 120%float.
Definition no_costs (p : LandingPad float) : LandingPad float :=
  mkLandingPad (name p) (dust_coeff p) (erosion_coeff p) 0%float 0%float.

Definition needs_three_points (s : Surface float) : option exception :=
  if (length (surface_x s) <? 3)%nat then Some ValueError else None.

(** ** The sweep as a traversal

    [traverse f xs] applies [f] to the elements of [xs] from left to
    right and stops at the first exception; [point] is what the body of
    the innermost loop computes before it appends.  Both are proof
    devices: the sweep is shown to be the traversal of the nested product
    of its three axes. *)

Fixpoint traverse {A B : Type} (f : A -> result B) (xs : list A)
  : result (list B) :=
  match xs with
  | [] => Ok []
  | x :: xs' => y <- f x ;; ys <- traverse f xs' ;; Ok (y :: ys)
  end.

Definition point {num : Type} {N : Number num} (thrust : num)
           (pdf : LandingPad num * (num * num)) : result (Row num) :=
  dust <- calculate_dust_deposition (fst pdf) thrust (fst (snd pdf)) ;;
  dust_solar <- py_mul dust (snd (snd pdf)) ;;
  erosion_per_landing <- calculate_erosion (fst pdf) thrust ;;
  erosion_per_month <- py_mul erosion_per_landing (snd (snd pdf)) ;;
  Ok {| Pad := name (fst pdf);
        Solar_Distance := fst (snd pdf);
        Frequency := snd (snd pdf);
        Dust_Solar := dust_solar;
        Erosion := erosion_per_month |}.

(** The position of the point [(i, j, k)] in the nested order. *)
Definition index_of (nx nf i j k : nat) : nat := (i * nx * nf + j * nf + k)%nat.

(** The rows that bear a name, and the call that [plot_3d_results] makes
    for it. *)
Definition surface_of {num : Type} (results : list (Row num)) (n : string)
  : Surface num :=
  {| surface_x := map Solar_Distance (filter (fun r => String.eqb (Pad r) n) results);
     surface_y := map Frequency (filter (fun r => String.eqb (Pad r) n) results);
     surface_z := map Dust_Solar (filter (fun r => String.eqb (Pad r) n) results);
     label := n |}.

(** ** Facts on loops and traversals *)

Section Loops.
Context {A B S : Type}.

Lemma for_each_app (body : A -> S -> result S) (xs ys : list A) (s : S) :
  for_each (xs ++ ys) body s = (s' <- for_each xs body s ;; for_each ys body s').
Proof.
  revert s. induction xs as [| x xs IH]; intros s; simpl; [reflexivity |].
  destruct (body x s); simpl; [apply IH | reflexivity].
Qed.

Lemma for_each_ext (body body' : A -> S -> result S) (xs : list A) (s : S) :
  (forall x s, body x s = body' x s) ->
  for_each xs body s = for_each xs body' s.
Proof.
  intros Hext. revert s.
  induction xs as [| x xs IH]; intros s; simpl; [reflexivity |].
  rewrite Hext. destruct (body' x s); simpl; [apply IH | reflexivity].
Qed.

Lemma for_each_map (g : B -> A) (body : A -> S -> result S)
      (xs : list B) (s : S) :
  for_each (map g xs) body s = for_each xs (fun x => body (g x)) s.
Proof.
  revert s. induction xs as [| x xs IH]; intros s; simpl; [reflexivity |].
  destruct (body (g x) s); simpl; [apply IH | reflexivity].
Qed.

Lemma traverse_app (f : A -> result B) (xs ys : list A) :
  traverse f (xs ++ ys)
  = (a <- traverse f xs ;; b <- traverse f ys ;; Ok (a ++ b)).
Proof.
  induction xs as [| x xs IH]; simpl.
  - destruct (traverse f ys); reflexivity.
  - destruct (f x) as [y |]; simpl; [| reflexivity].
    rewrite IH. destruct (traverse f xs); simpl; [| reflexivity].
    destruct (traverse f ys); reflexivity.
Qed.

(** A loop that appends what [f] returns collects the traversal. *)
Lemma for_each_collect (f : A -> result B) (xs : list A) (acc : list B) :
  for_each xs (fun x acc => y <- f x ;; Ok (acc ++ [y])) acc
  = (ys <- traverse f xs ;; Ok (acc ++ ys)).
Proof.
  revert acc. induction xs as [| x xs IH]; intros acc; simpl.
  - now rewrite app_nil_r.
  - destruct (f x) as [y |]; simpl; [| reflexivity].
    rewrite IH. destruct (traverse f xs); simpl; [| reflexivity].
    now rewrite <- app_assoc.
Qed.

(** A traversal returns when [f] returns at every element, and raises
    the exception of the first element at which [f] raises. *)
Lemma traverse_ok_iff (f : A -> result B) (xs : list A) (ys : list B) :
  traverse f xs = Ok ys <-> Forall2 (fun x y => f x = Ok y) xs ys.
Proof.
  revert ys. induction xs as [| x xs IH]; intros ys; simpl.
  - split; [intros [= <-]; constructor | intros H; now inversion H].
  - split.
    + destruct (f x) as [y |] eqn:Hx; simpl; [| discriminate].
      destruct (traverse f xs) as [ys' |] eqn:Hxs; simpl; [| discriminate].
      intros [= <-]. constructor; [assumption | now apply IH].
    + intros H. inversion H as [| ? y ? ys' Hx Hxs]; subst.
      apply IH in Hxs. now rewrite Hx, Hxs.
Qed.

Lemma traverse_raise_iff (f : A -> result B) (xs : list A) (e : exception) :
  traverse f xs = Raise e
  <-> exists xs1 x xs2,
        xs = xs1 ++ x :: xs2 /\
        Forall (fun x => exists y, f x = Ok y) xs1 /\
        f x = Raise e.
Proof.
  induction xs as [| x xs IH]; simpl.
  - split; [discriminate | intros (xs1 & x & xs2 & H & _); now destruct xs1].
  - split.
    + destruct (f x) as [y | e'] eqn:Hx; simpl.
      * destruct (traverse f xs) as [ys | e''] eqn:Hxs; simpl; [discriminate |].
        intros [= ->].
        destruct (proj1 IH eq_refl) as (xs1 & x' & xs2 & -> & Hok & Hraise).
        exists (x :: xs1), x', xs2. repeat split; [| assumption].
        constructor; [now exists y | assumption].
      * intros [= ->]. exists [], x, xs. repeat split; [constructor | assumption].
    + intros (xs1 & x' & xs2 & Heq & Hok & Hraise).
      destruct xs1 as [| x1 xs1]; simpl in Heq; injection Heq as -> ->.
      * now rewrite Hraise.
      * inversion Hok as [| ? ? [y Hy] Hok']; subst. rewrite Hy. simpl.
        rewrite (proj2 IH); [reflexivity |].
        now exists xs1, x', xs2.
Qed.

Lemma traverse_total (f : A -> result B) (g : A -> B) (xs : list A) :
  (forall x, In x xs -> f x = Ok (g x)) -> traverse f xs = Ok (map g xs).
Proof.
  induction xs as [| x xs IH]; intros Hf; simpl; [reflexivity |].
  rewrite (Hf x (or_introl eq_refl)). simpl.
  rewrite IH by (intros y Hy; apply Hf; now right). reflexivity.
Qed.

End Loops.

Lemma traverse_map {A B C : Type} (g : A -> B) (f : B -> result C) (xs : list A) :
  traverse f (map g xs) = traverse (fun x => f (g x)) xs.
Proof.
  induction xs as [| x xs IH]; simpl; [reflexivity |]. now rewrite IH.
Qed.

(** A loop whose body collects a traversal collects the traversal of the
    concatenation. *)
Lemma for_each_nested {A B C : Type} (g : A -> list B) (f : B -> result C)
      (xs : list A) (acc : list C) :
  for_each xs (fun x acc => ys <- traverse f (g x) ;; Ok (acc ++ ys)) acc
  = (ys <- traverse f (flat_map g xs) ;; Ok (acc ++ ys)).
Proof.
  revert acc. induction xs as [| x xs IH]; intros acc; simpl.
  - now rewrite app_nil_r.
  - rewrite traverse_app.
    destruct (traverse f (g x)) as [ys |]; simpl; [| reflexivity].
    rewrite IH.
    destruct (traverse f (flat_map g xs)); simpl; [| reflexivity].
    now rewrite <- app_assoc.
Qed.

(** ** Facts on lists laid out as a grid *)

Section Grid.
Context {A B : Type}.

Lemma list_prod_flat_map (xs : list A) (ys : list B) :
  list_prod xs ys = flat_map (fun x => map (fun y => (x, y)) ys) xs.
Proof. induction xs as [| x xs IH]; simpl; [reflexivity | now rewrite IH]. Qed.

Lemma list_prod_app (xs xs' : list A) (ys : list B) :
  list_prod (xs ++ xs') ys = list_prod xs ys ++ list_prod xs' ys.
Proof.
  induction xs as [| x xs IH]; simpl; [reflexivity |].
  now rewrite IH, app_assoc.
Qed.

Lemma list_prod_nth (xs : list A) (ys : list B) (i j : nat) (x : A) (y : B) :
  nth_error xs i = Some x -> nth_error ys j = Some y ->
  nth_error (list_prod xs ys) (i * length ys + j) = Some (x, y).
Proof.
  revert i. induction xs as [| x' xs IH]; intros i Hi Hj.
  - destruct i; discriminate.
  - assert (Hlt : (j < length ys)%nat) by (apply nth_error_Some; congruence).
    simpl. destruct i as [| i]; simpl in Hi.
    + injection Hi as ->. simpl.
      rewrite nth_error_app1 by now rewrite length_map.
      now apply map_nth_error.
    + rewrite nth_error_app2; rewrite length_map; [| simpl; lia].
      replace (S i * length ys + j - length ys)%nat
        with (i * length ys + j)%nat by (simpl; lia).
      now apply IH.
Qed.

Lemma Forall2_nth (R : A -> B -> Prop) (xs : list A) (ys : list B) (n : nat) (x : A) :
  Forall2 R xs ys -> nth_error xs n = Some x ->
  exists y, nth_error ys n = Some y /\ R x y.
Proof.
  intros H. revert n. induction H as [| x' y' xs ys Hxy _ IH]; intros n Hn.
  - destruct n; discriminate.
  - destruct n as [| n]; simpl in *.
    + injection Hn as ->. now exists y'.
    + now apply IH.
Qed.
End Grid.

(** ** The sweep: a traversal of the nested product *)

Section Sweep.
Context {num : Type} {N : Number num}.

Lemma map_pair_list_prod (pad : LandingPad num) (distances frequencies : list num) :
  flat_map (fun d => map (fun f => (pad, (d, f))) frequencies) distances
  = map (fun df => (pad, df)) (list_prod distances frequencies).
Proof.
  induction distances as [| d ds IH]; simpl; [reflexivity |].
  now rewrite map_app, map_map, IH.
Qed.

Theorem run_full_study_traverse
  (self : TradeStudy num) (distances frequencies : list num) :
  run_full_study self distances frequencies
  = traverse (point (vehicle_thrust self))
             (list_prod (pads self) (list_prod distances frequencies)).
Proof.
  unfold run_full_study.
  transitivity
    (for_each (pads self)
       (fun pad acc =>
          ys <- traverse (point (vehicle_thrust self))
                         (map (fun df => (pad, df))
                              (list_prod distances frequencies)) ;;
          Ok (acc ++ ys)) []).
  - apply for_each_ext. intros pad acc.
    rewrite <- map_pair_list_prod, <- for_each_nested.
    apply for_each_ext. intros d acc'.
    rewrite traverse_map, <- for_each_collect.
    apply for_each_ext. intros f acc''.
    unfold point. simpl.
    destruct (calculate_dust_deposition pad (vehicle_thrust self) d) as [q |];
      simpl; [| reflexivity].
    destruct (py_mul q f); simpl; [| reflexivity].
    destruct (calculate_erosion pad (vehicle_thrust self)) as [e |];
      simpl; [| reflexivity].
    destruct (py_mul e f); reflexivity.
  - rewrite for_each_nested, <- list_prod_flat_map.
    destruct (traverse _ _); reflexivity.
Qed.

(** What a point that evaluates has computed. *)
Lemma point_ok_inv (t : num) (pdf : LandingPad num * (num * num)) (r : Row num) :
  point t pdf = Ok r ->
  exists q e,
    calculate_dust_deposition (fst pdf) t (fst (snd pdf)) = Ok q /\
    py_mul q (snd (snd pdf)) = Ok (Dust_Solar r) /\
    calculate_erosion (fst pdf) t = Ok e /\
    py_mul e (snd (snd pdf)) = Ok (Erosion r) /\
    Pad r = name (fst pdf) /\
    Solar_Distance r = fst (snd pdf) /\
    Frequency r = snd (snd pdf).
Proof.
  unfold point.
  destruct (calculate_dust_deposition _ _ _) as [q |]; simpl; [| discriminate].
  destruct (py_mul q _) as [v |] eqn:Hv; simpl; [| discriminate].
  destruct (calculate_erosion _ _) as [e |]; simpl; [| discriminate].
  destruct (py_mul e _) as [w |] eqn:Hw; simpl; [| discriminate].
  intros [= <-]. exists q, e. simpl. repeat split; assumption.
Qed.

(** A point raises as soon as its dust deposition does. *)
Lemma point_raise_dust (t : num) (pdf : LandingPad num * (num * num)) (e : exception) :
  calculate_dust_deposition (fst pdf) t (fst (snd pdf)) = Raise e ->
  point t pdf = Raise e.
Proof. intros H. unfold point. now rewrite H. Qed.

Lemma run_full_study_ok_iff
  (self : TradeStudy num) (distances frequencies : list num) (rs : list (Row num)) :
  run_full_study self distances frequencies = Ok rs
  <-> Forall2 (fun pdf r => point (vehicle_thrust self) pdf = Ok r)
              (list_prod (pads self) (list_prod distances frequencies)) rs.
Proof. rewrite run_full_study_traverse. apply traverse_ok_iff. Qed.

Lemma run_full_study_length
  (self : TradeStudy num) (distances frequencies : list num) (rs : list (Row num)) :
  run_full_study self distances frequencies = Ok rs ->
  length rs = (length (pads self) * length distances * length frequencies)%nat.
Proof.
  intros Hrun. apply run_full_study_ok_iff in Hrun.
  rewrite <- (Forall2_length Hrun), !length_prod. lia.
Qed.

Lemma triples_nth (ps : list (LandingPad num)) (distances frequencies : list num)
      (i j k : nat) (p : LandingPad num) (d f : num) :
  nth_error ps i = Some p ->
  nth_error distances j = Some d ->
  nth_error frequencies k = Some f ->
  nth_error (list_prod ps (list_prod distances frequencies))
            (index_of (length distances) (length frequencies) i j k)
  = Some (p, (d, f)).
Proof.
  intros Hi Hj Hk. unfold index_of.
  pose proof (list_prod_nth _ _ _ _ _ _ Hj Hk) as Hdf.
  pose proof (list_prod_nth _ _ _ _ _ _ Hi Hdf) as Hpdf.
  rewrite length_prod in Hpdf.
  replace (i * length distances * length frequencies
           + j * length frequencies + k)%nat
    with (i * (length distances * length frequencies)
          + (j * length frequencies + k))%nat by lia.
  exact Hpdf.
Qed.

Lemma run_full_study_nth
  (self : TradeStudy num) (distances frequencies : list num) (rs : list (Row num))
  (i j k : nat) (p : LandingPad num) (d f : num) :
  run_full_study self distances frequencies = Ok rs ->
  nth_error (pads self) i = Some p ->
  nth_error distances j = Some d ->
  nth_error frequencies k = Some f ->
  exists r,
    nth_error rs (index_of (length distances) (length frequencies) i j k) = Some r /\
    point (vehicle_thrust self) (p, (d, f)) = Ok r.
Proof.
  intros Hrun Hi Hj Hk. apply run_full_study_ok_iff in Hrun.
  exact (Forall2_nth _ _ _ _ _ Hrun (triples_nth _ _ _ _ _ _ _ _ _ Hi Hj Hk)).
Qed.

Lemma run_full_study_empty
  (self : TradeStudy num) (distances frequencies : list num) :
  pads self = [] \/ distances = [] \/ frequencies = [] ->
  run_full_study self distances frequencies = Ok [].
Proof.
  intros Hempty. rewrite run_full_study_traverse.
  replace (list_prod (pads self) (list_prod distances frequencies))
    with (@nil (LandingPad num * (num * num))); [reflexivity |].
  symmetry. apply length_zero_iff_nil. rewrite !length_prod.
  destruct Hempty as [-> | [-> | ->]]; simpl; lia.
Qed.
End Sweep.

(** ** Facts on floats *)

Lemma Prim2SF_zero : Prim2SF 0%float = S754_zero false.
Proof. reflexivity. Qed.

Lemma float_eqb_zero (x : float) :
  (x =? 0)%float = true -> exists s, Prim2SF x = S754_zero s.
Proof.
  rewrite FloatAxioms.eqb_spec, Prim2SF_zero.
  destruct (Prim2SF x) as [s | s | | s m e]; simpl;
    try discriminate; try (destruct s; discriminate).
  intros _. now exists s.
Qed.


Lemma float_pow2_zero (x : float) :
  (x =? 0)%float = true -> float_pow2 x = Ok 0%float.
Proof.
  intros Hx. destruct (float_eqb_zero x Hx) as [s Hs].
  unfold float_pow2, is_nan, is_infinity. rewrite Hx.
  rewrite !FloatAxioms.eqb_spec, abs_spec, Hs. reflexivity.
Qed.

#[export] Instance Binary64_laws : NumberLaws float.
Proof.
  split.
  - intros x y Hy. simpl in *. now rewrite Hy.
  - intros x Hx. exists 0%float. simpl in *.
    split; [now apply float_pow2_zero | reflexivity].
Qed.

(** ** Facts on exact rationals *)

Local Open Scope Qc_scope.

Lemma Qc_sq_nonzero (d : Qc) : d <> 0 -> d ^ 2 <> 0.
Proof.
  intros Hd Hsq. simpl in Hsq. rewrite Qcmult_1_r in Hsq.
  destruct (Qcmult_integral _ _ Hsq); contradiction.
Qed.

Lemma Qc_sq_zero : (0 : Qc) ^ 2 = 0.
Proof. apply Qc_is_canon. reflexivity. Qed.

Lemma Qc_pos_nonzero (d : Qc) : 0 < d -> d <> 0.
Proof. intros Hd Heq. rewrite Heq in Hd. exact (Qclt_not_eq _ _ Hd eq_refl). Qed.

Lemma frac_2 : frac 2 1 = 1 + 1.
Proof. apply Qc_is_canon. reflexivity. Qed.

Lemma frac_4 : frac 4 1 = (1 + 1) * (1 + 1).
Proof. apply Qc_is_canon. reflexivity. Qed.

Lemma Qc_two_nonzero : 1 + 1 <> 0.
Proof. intros H. apply (f_equal this) in H. discriminate H. Qed.

(** Side conditions of [field]: a hypothesis, or a numeral that is not 0. *)
Ltac qc_nonzero :=
  repeat split;
  first [ assumption
        | let H := fresh in intros H; apply (f_equal this) in H; discriminate H ].

Lemma frac_truediv (x y : Qc) : y <> 0 -> py_truediv x y = Ok (x / y).
Proof.
  intros Hy. simpl. destruct (Qc_eq_dec y 0); [contradiction | reflexivity].
Qed.

Lemma frac_truediv_zero (x : Qc) : py_truediv x 0 = Raise ZeroDivisionError.
Proof.
  simpl. destruct (Qc_eq_dec 0 0) as [_ | Hn]; [reflexivity | now elim Hn].
Qed.

#[export] Instance Fraction_laws : NumberLaws Qc.
Proof.
  split.
  - intros x y Hy. simpl in *.
    destruct (Qc_eq_dec y 0); [reflexivity | discriminate].
  - intros x Hx. simpl in Hx.
    destruct (Qc_eq_dec x 0) as [-> | _]; [| discriminate].
    exists (0 ^ 2). split; [reflexivity |].
    change (py_is_zero ((0 : Qc) ^ 2))
      with (if Qc_eq_dec ((0 : Qc) ^ 2) 0 then true else false).
    rewrite Qc_sq_zero.
    destruct (Qc_eq_dec 0 0) as [_ | Hn]; [reflexivity | now elim Hn].
Qed.

Lemma frac_dust (pad : LandingPad Qc) (t d : Qc) :
  d <> 0 ->
  calculate_dust_deposition pad t d = Ok (dust_coeff pad * t / d ^ 2).
Proof.
  intros Hd. unfold calculate_dust_deposition.
  change (py_mul (dust_coeff pad) t) with (Ok (dust_coeff pad * t)).
  change (py_pow2 d) with (Ok (d ^ 2)). cbn [bind].
  apply frac_truediv, Qc_sq_nonzero, Hd.
Qed.

Lemma frac_dust_zero (pad : LandingPad Qc) (t : Qc) :
  calculate_dust_deposition pad t 0 = Raise ZeroDivisionError.
Proof.
  unfold calculate_dust_deposition.
  change (py_mul (dust_coeff pad) t) with (Ok (dust_coeff pad * t)).
  change (py_pow2 0) with (Ok ((0 : Qc) ^ 2)). cbn [bind].
  rewrite Qc_sq_zero. apply frac_truediv_zero.
Qed.

(** The row of a point in exact arithmetic. *)
Definition frac_row (t : Qc) (pdf : LandingPad Qc * (Qc * Qc)) : Row Qc :=
  {| Pad := name (fst pdf);
     Solar_Distance := fst (snd pdf);
     Frequency := snd (snd pdf);
     Dust_Solar := dust_coeff (fst pdf) * t / fst (snd pdf) ^ 2 * snd (snd pdf);
     Erosion := erosion_coeff (fst pdf) * t * snd (snd pdf) |}.

Lemma frac_point (t : Qc) (pdf : LandingPad Qc * (Qc * Qc)) :
  fst (snd pdf) <> 0 -> point t pdf = Ok (frac_row t pdf).
Proof.
  intros Hd. unfold point. rewrite frac_dust by assumption. reflexivity.
Qed.

Lemma frac_run_ok (self : TradeStudy Qc) (distances frequencies : list Qc) :
  Forall (fun d => d <> 0) distances ->
  run_full_study self distances frequencies
  = Ok (map (frac_row (vehicle_thrust self))
            (list_prod (pads self) (list_prod distances frequencies))).
Proof.
  intros Hnz. rewrite run_full_study_traverse.
  apply traverse_total. intros [p [d f]] Hin.
  apply frac_point. simpl.
  apply in_prod_iff in Hin. destruct Hin as [_ Hin].
  apply in_prod_iff in Hin. destruct Hin as [Hd _].
  rewrite Forall_forall in Hnz. now apply Hnz.
Qed.

Local Close Scope Qc_scope.

(** ** More facts on the sweep *)

Lemma traverse_returns_iff {A B : Type} (f : A -> result B) (xs : list A) :
  (exists ys, traverse f xs = Ok ys) <-> Forall (fun x => exists y, f x = Ok y) xs.
Proof.
  induction xs as [| x xs IH]; simpl.
  - split; [constructor | now exists []].
  - split.
    + intros [ys Hys].
      destruct (f x) as [y |] eqn:Hx; simpl in Hys; [| discriminate].
      destruct (traverse f xs) as [ys' |] eqn:Hxs; simpl in Hys; [| discriminate].
      constructor; [now exists y | apply IH; now exists ys'].
    + intros H. inversion H as [| ? ? [y Hy] Hxs]; subst.
      apply IH in Hxs. destruct Hxs as [ys Hys].
      exists (y :: ys). now rewrite Hy, Hys.
Qed.

Lemma dust_ok_inv {num : Type} {N : Number num}
      (pad : LandingPad num) (t d q : num) :
  calculate_dust_deposition pad t d = Ok q ->
  exists product square,
    py_mul (dust_coeff pad) t = Ok product /\
    py_pow2 d = Ok square /\
    py_truediv product square = Ok q.
Proof.
  unfold calculate_dust_deposition.
  destruct (py_mul (dust_coeff pad) t) as [product |]; simpl; [| discriminate].
  destruct (py_pow2 d) as [square |]; simpl; [| discriminate].
  intros Hq. now exists product, square.
Qed.

(** At a number equal to 0 the dust deposition is never returned. *)
Lemma dust_zero_not_ok {num : Type} {N : Number num} {L : NumberLaws num}
      (pad : LandingPad num) (t z q : num) :
  py_is_zero z = true -> calculate_dust_deposition pad t z <> Ok q.
Proof.
  intros Hz Hq. apply dust_ok_inv in Hq.
  destruct Hq as (product & square & _ & Hsq & Hdiv).
  destruct (pow2_of_zero z Hz) as (y & Hy & Hy0).
  rewrite Hy in Hsq. injection Hsq as <-.
  rewrite (truediv_by_zero product y Hy0) in Hdiv. discriminate.
Qed.

(** When the product returns, it raises [ZeroDivisionError]. *)
Lemma dust_zero_raises {num : Type} {N : Number num} {L : NumberLaws num}
      (pad : LandingPad num) (t z product : num) :
  py_is_zero z = true -> py_mul (dust_coeff pad) t = Ok product ->
  calculate_dust_deposition pad t z = Raise ZeroDivisionError.
Proof.
  intros Hz Hp. unfold calculate_dust_deposition. rewrite Hp. simpl.
  destruct (pow2_of_zero z Hz) as (y & -> & Hy0). simpl.
  now apply truediv_by_zero.
Qed.

(** The row of a point in floats, where [square] is the square of the
    distance. *)
Definition float_row (t square : float) (pdf : LandingPad float * (float * float))
  : Row float :=
  {| Pad := name (fst pdf);
     Solar_Distance := fst (snd pdf);
     Frequency := snd (snd pdf);
     Dust_Solar := (dust_coeff (fst pdf) * t / square * snd (snd pdf))%float;
     Erosion := (erosion_coeff (fst pdf) * t * snd (snd pdf))%float |}.

Lemma float_dust (pad : LandingPad float) (t d square : float) :
  py_pow2 d = Ok square -> (square =? 0)%float = false ->
  calculate_dust_deposition pad t d = Ok (dust_coeff pad * t / square)%float.
Proof.
  intros Hsq Hnz. unfold calculate_dust_deposition.
  change (py_mul (dust_coeff pad) t) with (Ok (dust_coeff pad * t)%float).
  cbn [bind]. rewrite Hsq. cbn [bind].
  change (py_truediv (dust_coeff pad * t)%float square)
    with (if (square =? 0)%float then Raise ZeroDivisionError
          else Ok (dust_coeff pad * t / square)%float).
  now rewrite Hnz.
Qed.

Lemma float_point (t square : float) (pdf : LandingPad float * (float * float)) :
  py_pow2 (fst (snd pdf)) = Ok square -> (square =? 0)%float = false ->
  point t pdf = Ok (float_row t square pdf).
Proof.
  intros Hsq Hnz. unfold point.
  rewrite (float_dust _ _ _ _ Hsq Hnz). reflexivity.
Qed.

(** In floats a point evaluates exactly when its dust deposition does,
    since [*] never raises. *)
Lemma float_point_returns (t : float) (pdf : LandingPad float * (float * float)) :
  (exists r, point t pdf = Ok r)
  <-> exists square, py_pow2 (fst (snd pdf)) = Ok square /\
                     (square =? 0)%float = false.
Proof.
  split.
  - intros [r Hr]. apply point_ok_inv in Hr.
    destruct Hr as (q & _ & Hq & _).
    apply dust_ok_inv in Hq. destruct Hq as (product & square & _ & Hsq & Hdiv).
    exists square. split; [assumption |].
    change (py_truediv product square)
      with (if (square =? 0)%float then Raise ZeroDivisionError
            else Ok (product / square)%float) in Hdiv.
    destruct (square =? 0)%float; [discriminate | reflexivity].
  - intros (square & Hsq & Hnz). exists (float_row t square pdf).
    now apply float_point.
Qed.

Lemma run_full_study_single {num : Type} {N : Number num}
      (pad : LandingPad num) (t l d f : num) :
  run_full_study (mkTradeStudy [pad] t l) [d] [f]
  = (r <- point t (pad, (d, f)) ;; Ok [r]).
Proof.
  rewrite run_full_study_traverse.
  change (list_prod (pads (mkTradeStudy [pad] t l)) (list_prod [d] [f]))
    with [(pad, (d, f))].
  cbn [traverse vehicle_thrust].
  destruct (point t (pad, (d, f))); reflexivity.
Qed.

(** * The claims *)

(** ** Rows of the sweep *)





Lemma Forall2_in_l {A B : Type} (R : A -> B -> Prop) (xs : list A) (ys : list B) (x : A) :
  Forall2 R xs ys -> In x xs -> exists y, R x y.
Proof.
  intros H. induction H as [| x' y' xs ys Hxy _ IH]; intros Hin; [destruct Hin |].
  destruct Hin as [<- | Hin]; [now exists y' | now apply IH].
Qed.

Lemma Forall2_keys {num : Type} {N : Number num} (t : num)
      (triples : list (LandingPad num * (num * num))) (rs : list (Row num)) :
  Forall2 (fun pdf r => point t pdf = Ok r) triples rs ->
  Forall2 (fun pdf r =>
             Pad r = name (fst pdf) /\
             Solar_Distance r = fst (snd pdf) /\
             Frequency r = snd (snd pdf)) triples rs.
Proof.
  intros H. induction H as [| pdf r triples rs Hr _ IH]; constructor; [| exact IH].
  apply point_ok_inv in Hr. destruct Hr as (_ & _ & _ & _ & _ & _ & Hkeys).
  exact Hkeys.
Qed.

(** C3, as stated, fails on floats: over one pad, the positive distances
    30 and [2^-600] and one frequency the sweep raises
    [ZeroDivisionError], and over the positive distance [2^600] it
    raises [OverflowError]; no list is returned. *)
Lemma C3_cardinality_fails :
  pads (mkTradeStudy [BRP] 40%float 120%float) <> [] /\
  [30%float; 0x1p-600%float] <> [] /\ [10%float] <> [] /\
  Forall (fun d => (0 <? d)%float = true) [30%float; 0x1p-600%float; 0x1p600%float] /\
  run_full_study (mkTradeStudy [BRP] 40%float 120%float)
                 [30%float; 0x1p-600%float] [10%float]
  = Raise ZeroDivisionError /\
  run_full_study (mkTradeStudy [BRP] 40%float 120%float)
                 [0x1p600%float] [10%float]
  = Raise OverflowError.
Proof.
  repeat split; try discriminate. repeat constructor.
Qed.

(** C3, amended.  The sweep returns exactly when every point of the
    nested product of its three axes evaluates, and then it returns
    [|designs| * |distances| * |frequencies|] rows, one for each triple
    of the product and in its order: nothing is merged or left out.  For
    non-empty axes every point evaluates on floats when the square of
    each distance is returned and is not zero, and in exact arithmetic
    when the distances are positive. *)
Theorem C3_cardinality :
  (forall (num : Type) (N : Number num) (self : TradeStudy num)
          (distances frequencies : list num),
     ((exists rs, run_full_study self distances frequencies = Ok rs)
      <-> Forall (fun pdf => exists r, point (vehicle_thrust self) pdf = Ok r)
                 (list_prod (pads self) (list_prod distances frequencies))) /\
     (forall rs,
        run_full_study self distances frequencies = Ok rs ->
        length rs
        = (length (pads self) * length distances * length frequencies)%nat /\
        Forall2 (fun pdf r =>
                   Pad r = name (fst pdf) /\
                   Solar_Distance r = fst (snd pdf) /\
                   Frequency r = snd (snd pdf))
                (list_prod (pads self) (list_prod distances frequencies)) rs))
  /\
  (forall (self : TradeStudy float) (distances frequencies : list float),
     pads self <> [] -> distances <> [] -> frequencies <> [] ->
     Forall (fun d => exists square,
                 py_pow2 d = Ok square /\ (square =? 0)%float = false)
            distances ->
     exists rs,
       run_full_study self distances frequencies = Ok rs /\
       length rs
       = (length (pads self) * length distances * length frequencies)%nat)
  /\
  (forall (self : TradeStudy Qc) (distances frequencies : list Qc),
     pads self <> [] -> distances <> [] -> frequencies <> [] ->
     Forall (fun d => (0 < d)%Qc) distances ->
     exists rs,
       run_full_study self distances frequencies = Ok rs /\
       length rs
       = (length (pads self) * length distances * length frequencies)%nat).
Proof.
  split; [| split].
  - intros num N self distances frequencies. split.
    + rewrite run_full_study_traverse. apply traverse_returns_iff.
    + intros rs Hrun. split; [now apply run_full_study_length |].
      apply run_full_study_ok_iff in Hrun.
      exact (Forall2_keys _ _ _ Hrun).
  - intros self distances frequencies _ _ _ Hsq.
    assert (Hret : exists rs, run_full_study self distances frequencies = Ok rs).
    { rewrite run_full_study_traverse. apply traverse_returns_iff.
      apply Forall_forall. intros [p [d f]] Hin.
      apply float_point_returns. simpl.
      apply in_prod_iff in Hin. destruct Hin as [_ Hin].
      apply in_prod_iff in Hin. destruct Hin as [Hd _].
      rewrite Forall_forall in Hsq. now apply Hsq. }
    destruct Hret as [rs Hrun]. exists rs.
    split; [assumption | now apply run_full_study_length].
  - intros self distances frequencies _ _ _ Hpos.
    eexists. split.
    + apply frac_run_ok.
      eapply Forall_impl; [| exact Hpos]. intros d. apply Qc_pos_nonzero.
    + rewrite length_map, !length_prod. lia.
Qed.

(** C4. The rows of a sweep that returns are in the nested order of the
    loops: by pad in the order given, then by distance, then by
    frequency.  The keys of the rows, read in order, are the Cartesian
    product of the three sequences, and the row of the point
    [(i, j, k)] is at position [i * |distances| * |frequencies| + j *
    |frequencies| + k]. *)
Theorem C4_nested_order
  (num : Type) (N : Number num)
  (self : TradeStudy num) (distances frequencies : list num) (rs : list (Row num)) :
  run_full_study self distances frequencies = Ok rs ->
  map (fun r => (Pad r, (Solar_Distance r, Frequency r))) rs
  = map (fun pdf => (name (fst pdf), snd pdf))
        (list_prod (pads self) (list_prod distances frequencies))
  /\
  forall i j k pad d f,
    nth_error (pads self) i = Some pad ->
    nth_error distances j = Some d ->
    nth_error frequencies k = Some f ->
    exists r,
      nth_error rs (i * length distances * length frequencies
                    + j * length frequencies + k) = Some r /\
      Pad r = name pad /\ Solar_Distance r = d /\ Frequency r = f.
Proof.
  intros Hrun. split.
  - apply run_full_study_ok_iff in Hrun.
    pose proof (Forall2_keys _ _ _ Hrun) as Hkeys. clear Hrun.
    rename Hkeys into Hrun.
    induction Hrun as [| [p [d f]] r triples rs' (Hp & Hd & Hf) _ IH];
      simpl in *; [reflexivity |].
    now rewrite IH, Hp, Hd, Hf.
  - intros i j k pad d f Hi Hj Hk.
    destruct (run_full_study_nth self distances frequencies rs i j k pad d f
                Hrun Hi Hj Hk) as (r & Hr & Hpoint).
    apply point_ok_inv in Hpoint. simpl in Hpoint.
    destruct Hpoint as (_ & _ & _ & _ & _ & _ & Hp & Hd & Hf).
    exists r. now repeat split.
Qed.

(** ** Failure and empty axes *)

(** C5, as stated, fails on floats: over the distances [2^600] and 0 the
    sweep raises [OverflowError] at the first distance, before any
    division by zero. *)
Lemma C5_zero_distance_fails :
  pads (mkTradeStudy [BRP] 40%float 120%float) <> [] /\
  [10%float] <> [] /\
  In 0%float [0x1p600%float; 0%float] /\
  run_full_study (mkTradeStudy [BRP] 40%float 120%float)
                 [0x1p600%float; 0%float] [10%float]
  = Raise OverflowError.
Proof.
  repeat split; try discriminate. right. now left.
Qed.

(** C5, amended.  With a pad and a frequency, a sweep whose distances
    contain a number equal to 0 raises and returns no list, complete or
    partial: [run_full_study] has no handler, and whenever a list is
    returned it is the complete grid.  The exception is
    [ZeroDivisionError] when the points of the first pad at the earlier
    distances evaluate and its product [dust_coeff * t] returns;
    otherwise it is the exception of an earlier point.  In exact
    arithmetic it is always [ZeroDivisionError]. *)
Theorem C5_zero_distance_raises :
  (forall (num : Type) (N : Number num) (L : NumberLaws num)
          (self : TradeStudy num) (distances frequencies : list num) (z : num),
     pads self <> [] -> frequencies <> [] ->
     In z distances -> py_is_zero z = true ->
     (exists e, run_full_study self distances frequencies = Raise e) /\
     (forall rs, run_full_study self distances frequencies <> Ok rs) /\
     (forall p ps before after product,
        pads self = p :: ps ->
        distances = before ++ z :: after ->
        (forall d f, In d before -> In f frequencies ->
                     exists r, point (vehicle_thrust self) (p, (d, f)) = Ok r) ->
        py_mul (dust_coeff p) (vehicle_thrust self) = Ok product ->
        run_full_study self distances frequencies = Raise ZeroDivisionError) /\
     (forall distances' frequencies' rs,
        run_full_study self distances' frequencies' = Ok rs ->
        length rs
        = (length (pads self) * length distances' * length frequencies')%nat))
  /\
  (forall (self : TradeStudy Qc) (distances frequencies : list Qc),
     pads self <> [] -> frequencies <> [] -> In 0%Qc distances ->
     run_full_study self distances frequencies = Raise ZeroDivisionError).
Proof.
  assert (Hgen : forall (num : Type) (N : Number num) (L : NumberLaws num)
            (self : TradeStudy num) (distances frequencies : list num) (z : num),
     pads self <> [] -> frequencies <> [] ->
     In z distances -> py_is_zero z = true ->
     (forall rs, run_full_study self distances frequencies <> Ok rs) /\
     (forall p ps before after product,
        pads self = p :: ps ->
        distances = before ++ z :: after ->
        (forall d f, In d before -> In f frequencies ->
                     exists r, point (vehicle_thrust self) (p, (d, f)) = Ok r) ->
        py_mul (dust_coeff p) (vehicle_thrust self) = Ok product ->
        run_full_study self distances frequencies = Raise ZeroDivisionError)).
  { intros num N L self distances frequencies z Hp Hf Hz Hz0. split.
    - intros rs Hrun. apply run_full_study_ok_iff in Hrun.
      destruct (pads self) as [| p ps] eqn:Hpads; [contradiction |].
      destruct frequencies as [| f fs]; [contradiction |].
      assert (Hin : In (p, (z, f))
                       (list_prod (p :: ps) (list_prod distances (f :: fs)))).
      { apply in_prod; [now left |]. apply in_prod; [assumption | now left]. }
      destruct (Forall2_in_l _ _ _ _ Hrun Hin) as [r Hr].
      apply point_ok_inv in Hr. destruct Hr as (q & _ & Hq & _).
      exact (dust_zero_not_ok _ _ _ _ Hz0 Hq).
    - intros p ps before after product Hpads Hsplit Hbefore Hproduct.
      destruct frequencies as [| f fs]; [contradiction |].
      rewrite run_full_study_traverse. apply traverse_raise_iff.
      exists (map (fun df => (p, df)) (list_prod before (f :: fs))),
             (p, (z, f)),
             (map (fun df => (p, df))
                  (map (fun f' => (z, f')) fs ++ list_prod after (f :: fs))
              ++ list_prod ps (list_prod distances (f :: fs))).
      split; [| split].
      + rewrite Hpads, Hsplit, list_prod_app. simpl.
        rewrite !map_app. simpl. rewrite !map_app.
        repeat (rewrite <- app_assoc || rewrite <- app_comm_cons).
        reflexivity.
      + apply Forall_forall. intros pdf Hin.
        apply in_map_iff in Hin. destruct Hin as ([d f'] & <- & Hin).
        apply in_prod_iff in Hin. destruct Hin as [Hd Hf'].
        now apply Hbefore.
      + apply point_raise_dust. simpl.
        now apply dust_zero_raises with product. }
  split.
  - intros num N L self distances frequencies z Hp Hf Hz Hz0.
    destruct (Hgen num N L self distances frequencies z Hp Hf Hz Hz0)
      as [Hnot Hzde].
    split; [| split; [exact Hnot | split; [exact Hzde |]]].
    + destruct (run_full_study self distances frequencies) as [rs | e] eqn:Hrun;
        [now elim (Hnot rs) | now exists e].
    + intros distances' frequencies' rs. apply run_full_study_length.
  - intros self distances frequencies Hp Hf H0.
    destruct (run_full_study self distances frequencies) as [rs | e] eqn:Hrun.
    + assert (Hz0 : py_is_zero (0%Qc) = true).
      { simpl. destruct (Qc_eq_dec 0 0) as [_ | Hn]; [reflexivity | now elim Hn]. }
      destruct (Hgen Qc _ _ self distances frequencies 0%Qc Hp Hf H0 Hz0)
        as [Hnot _].
      now elim (Hnot rs).
    + rewrite run_full_study_traverse in Hrun.
      apply traverse_raise_iff in Hrun.
      destruct Hrun as (_ & [p [d f]] & _ & _ & _ & Hraise).
      destruct (Qc_eq_dec d 0) as [-> | Hd].
      * rewrite (point_raise_dust (vehicle_thrust self) (p, (0%Qc, f))
                   ZeroDivisionError (frac_dust_zero p (vehicle_thrust self)))
          in Hraise.
        congruence.
      * rewrite frac_point in Hraise by assumption. discriminate.
Qed.

(** C10. When the pads, the distances or the frequencies are empty, the
    sweep raises nothing and returns the empty list. *)
Theorem C10_empty_axis
  (num : Type) (N : Number num)
  (self : TradeStudy num) (distances frequencies : list num) :
  pads self = [] \/ distances = [] \/ frequencies = [] ->
  run_full_study self distances frequencies = Ok [].
Proof.
  apply run_full_study_empty.
Qed.

(** ** The pad model *)



(** C7, as stated, fails on floats: with [dust_coeff * t = 1.25 * 2^-53]
    and [d = 2^510] the deposition at [2 * d] is [2^-1074] while a
    quarter of the deposition at [d] rounds to 0; and at [d = 2^-600] no
    deposition is returned at all. *)
Lemma C7_inverse_square_fails :
  ((0 <? 0x1p510)%float = true /\ (2 * 0x1p510 = 0x1p511)%float /\
   exists r r2,
     run_full_study
       (mkTradeStudy [mkLandingPad "P" 0x1.4p-53%float 1%float 1%float 1%float]
                     1%float 1%float)
       [0x1p510%float; 0x1p511%float] [1%float] = Ok [r; r2] /\
     Dust_Solar r2 = 0x1p-1074%float /\
     (Dust_Solar r / 4 = 0)%float /\
     (Dust_Solar r2 =? Dust_Solar r / 4)%float = false)
  /\
  ((0 <? 0x1p-600)%float = true /\
   run_full_study (mkTradeStudy [BRP] 40%float 120%float)
                  [0x1p-600%float; (2 * 0x1p-600)%float] [10%float]
   = Raise ZeroDivisionError).
Proof.
  split.
  - split; [reflexivity |]. split; [reflexivity |].
    do 2 eexists. repeat split; reflexivity.
  - split; reflexivity.
Qed.

(** C7, amended.  In exact arithmetic, for a distance [d > 0], the dust
    at distance [2 * d] is a quarter of the dust at distance [d], for the
    same pad, thrust and frequency: in [calculate_dust_deposition] and in
    the rows of a sweep over the two distances. *)
Theorem C7_inverse_square
  (pad : LandingPad Qc) (thrust lifetime d f : Qc) :
  (0 < d)%Qc ->
  (exists q q2,
     calculate_dust_deposition pad thrust d = Ok q /\
     calculate_dust_deposition pad thrust (frac 2 1 * d)%Qc = Ok q2 /\
     q2 = (q / frac 4 1)%Qc)
  /\
  (exists r r2,
     run_full_study (mkTradeStudy [pad] thrust lifetime)
                    [d; (frac 2 1 * d)%Qc] [f]
     = Ok [r; r2] /\
     Dust_Solar r2 = (Dust_Solar r / frac 4 1)%Qc).
Proof.
  intros Hpos.
  pose proof (Qc_pos_nonzero d Hpos) as Hd.
  assert (H2d : (frac 2 1 * d)%Qc <> 0%Qc).
  { rewrite frac_2. intros H. destruct (Qcmult_integral _ _ H);
      [now apply Qc_two_nonzero | contradiction]. }
  split.
  - exists (dust_coeff pad * thrust / d ^ 2)%Qc,
           (dust_coeff pad * thrust / (frac 2 1 * d) ^ 2)%Qc.
    rewrite !frac_dust by assumption.
    repeat split. rewrite frac_2, frac_4. simpl.
    field. qc_nonzero.
  - exists (frac_row thrust (pad, (d, f))),
           (frac_row thrust (pad, ((frac 2 1 * d)%Qc, f))).
    split.
    + rewrite frac_run_ok by (repeat constructor; assumption). reflexivity.
    + simpl. rewrite frac_2, frac_4. field. qc_nonzero.
Qed.



Lemma float_pow2_raise (d : float) (e : exception) :
  float_pow2 d = Raise e -> e = OverflowError.
Proof.
  unfold float_pow2.
  destruct (is_nan d); [discriminate |].
  destruct (is_infinity d); [discriminate |].
  destruct (d =? 0)%float; [discriminate |].
  cbv zeta. destruct (is_infinity (d * d)); [congruence | discriminate].
Qed.

(** In floats a point that raises has raised in its dust deposition,
    with one of the two exceptions of the arithmetic. *)
Lemma float_point_raise (t : float) (pdf : LandingPad float * (float * float))
      (e : exception) :
  point t pdf = Raise e ->
  calculate_dust_deposition (fst pdf) t (fst (snd pdf)) = Raise e /\
  (e = ZeroDivisionError \/ e = OverflowError).
Proof.
  destruct pdf as [p [d f]]. intros Hraise. simpl.
  assert (Hdust : calculate_dust_deposition p t d = Raise e).
  { unfold point in Hraise. simpl in Hraise.
    destruct (calculate_dust_deposition p t d) as [q | e'];
      cbn [bind] in Hraise; [discriminate | congruence]. }
  split; [exact Hdust |].
  unfold calculate_dust_deposition in Hdust.
  change (py_mul (dust_coeff p) t) with (Ok (dust_coeff p * t)%float) in Hdust.
  cbn [bind] in Hdust.
  change (py_pow2 d) with (float_pow2 d) in Hdust.
  destruct (float_pow2 d) as [square | e'] eqn:Hsq; cbn [bind] in Hdust.
  - change (py_truediv (dust_coeff p * t)%float square)
      with (if (square =? 0)%float then Raise ZeroDivisionError
            else Ok (dust_coeff p * t / square)%float) in Hdust.
    destruct (square =? 0)%float; [left; congruence | discriminate].
  - right. injection Hdust as <-. exact (float_pow2_raise d e' Hsq).
Qed.

(** ** What a failure tells the caller *)

(** C9, as stated, fails: the exception that leaves [run_full_study]
    names no point.  Two sweeps of a single point each, at the same pad
    and distance 0 with frequencies 5 and 10, surface the same failure,
    so no reading of the failure gives back the triple that raised it. *)
Lemma C9_failure_names_no_triple :
  ~ exists identify : exception -> string * float * float,
      forall (p : LandingPad float) (t l d f : float) (e : exception),
        run_full_study (mkTradeStudy [p] t l) [d] [f] = Raise e ->
        identify e = (name p, d, f).
Proof.
  intros [identify Hid].
  assert (H5 : run_full_study (mkTradeStudy [BRP] 40%float 120%float)
                 [0%float] [5%float] = Raise ZeroDivisionError) by reflexivity.
  assert (H10 : run_full_study (mkTradeStudy [BRP] 40%float 120%float)
                  [0%float] [10%float] = Raise ZeroDivisionError) by reflexivity.
  apply Hid in H5, H10. rewrite H5 in H10.
  apply (f_equal (fun x => (snd x =? 5)%float)) in H10.
  vm_compute in H10. discriminate H10.
Qed.

(** C9, amended.  A sweep fails exactly when some point of the nested
    product of its axes fails, and the failure surfaced is the exception
    raised at the first such point in the order of the sweep: every
    point before it evaluates.  The exception is the bare one of the
    arithmetic: on floats the [ZeroDivisionError] or the [OverflowError]
    that [calculate_dust_deposition] raises at that point, in exact
    arithmetic the [ZeroDivisionError] of a distance equal to 0.  It
    does not tell the point: on floats the sweep of one point surfaces
    the same exception at any other frequency. *)
Theorem C9_first_failure :
  (forall (num : Type) (N : Number num) (self : TradeStudy num)
          (distances frequencies : list num) (e : exception),
     run_full_study self distances frequencies = Raise e
     <-> exists before pdf after,
           list_prod (pads self) (list_prod distances frequencies)
           = before ++ pdf :: after /\
           Forall (fun x => exists r, point (vehicle_thrust self) x = Ok r) before /\
           point (vehicle_thrust self) pdf = Raise e)
  /\
  (forall (t : float) (pdf : LandingPad float * (float * float)) (e : exception),
     point t pdf = Raise e ->
     calculate_dust_deposition (fst pdf) t (fst (snd pdf)) = Raise e /\
     (e = ZeroDivisionError \/ e = OverflowError))
  /\
  (forall (t : Qc) (pdf : LandingPad Qc * (Qc * Qc)) (e : exception),
     point t pdf = Raise e ->
     calculate_dust_deposition (fst pdf) t (fst (snd pdf)) = Raise e /\
     e = ZeroDivisionError /\ fst (snd pdf) = 0%Qc)
  /\
  (forall (p : LandingPad float) (t l d f f' : float) (e : exception),
     run_full_study (mkTradeStudy [p] t l) [d] [f] = Raise e ->
     run_full_study (mkTradeStudy [p] t l) [d] [f'] = Raise e).
Proof.
  split; [| split; [| split]]; cycle 3.
  { intros p t l d f f' e Hrun. rewrite run_full_study_single in *.
    destruct (point t (p, (d, f))) as [r | e'] eqn:Hp; cbn [bind] in Hrun;
      [discriminate |].
    injection Hrun as ->. apply float_point_raise in Hp.
    destruct Hp as [Hd _].
    now rewrite (point_raise_dust t (p, (d, f')) e Hd). }
  - intros num N self distances frequencies e.
    rewrite run_full_study_traverse. apply traverse_raise_iff.
  - apply float_point_raise.
  - intros t [p [d f]] e Hraise. simpl.
    destruct (Qc_eq_dec d 0%Qc) as [-> | Hd].
    + rewrite (point_raise_dust t (p, (0%Qc, f)) ZeroDivisionError
                 (frac_dust_zero p t)) in Hraise.
      injection Hraise as <-. split; [apply frac_dust_zero | now split].
    + rewrite frac_point in Hraise by assumption. discriminate.
Qed.

(** * Beyond the claims *)

(** ** Errors of the dust deposition on floats *)


(** ** The sweep as a whole *)

(** X4. On floats the sweep returns exactly when the pads or the
    frequencies are empty or the square of every distance is returned
    and is not zero; otherwise it raises [ZeroDivisionError] or
    [OverflowError]. *)
Theorem X4_float_sweep_returns
  (self : TradeStudy float) (distances frequencies : list float) :
  ((exists rs, run_full_study self distances frequencies = Ok rs)
   <-> pads self = [] \/ frequencies = [] \/
       Forall (fun d => exists square,
                   py_pow2 d = Ok square /\ (square =? 0)%float = false)
              distances) /\
  (forall e, run_full_study self distances frequencies = Raise e ->
             e = ZeroDivisionError \/ e = OverflowError).
Proof.
  split.
  - split.
    + intros [rs Hrun]. apply run_full_study_ok_iff in Hrun.
      destruct (pads self) as [| p ps] eqn:Hp; [now left |].
      destruct frequencies as [| f fs]; [now right; left |].
      right; right. apply Forall_forall. intros d Hd.
      assert (Hin : In (p, (d, f))
                       (list_prod (p :: ps) (list_prod distances (f :: fs)))).
      { apply in_prod; [now left |]. apply in_prod; [assumption | now left]. }
      destruct (Forall2_in_l _ _ _ _ Hrun Hin) as [r Hr].
      apply (proj1 (float_point_returns (vehicle_thrust self) (p, (d, f)))).
      now exists r.
    + intros [Hp | [Hf | Hsq]].
      * exists []. apply run_full_study_empty. now left.
      * exists []. apply run_full_study_empty. now right; right.
      * rewrite run_full_study_traverse. apply traverse_returns_iff.
        apply Forall_forall. intros [p [d f]] Hin.
        apply float_point_returns. simpl.
        apply in_prod_iff in Hin. destruct Hin as [_ Hin].
        apply in_prod_iff in Hin. destruct Hin as [Hd _].
        rewrite Forall_forall in Hsq. now apply Hsq.
  - intros e Hrun. rewrite run_full_study_traverse in Hrun.
    apply traverse_raise_iff in Hrun.
    destruct Hrun as (_ & pdf & _ & _ & _ & Hraise).
    exact (proj2 (float_point_raise _ _ _ Hraise)).
Qed.

(** X5. Sweeping the pads [ps1 ++ ps2] is sweeping [ps1], then [ps2],
    and concatenating the rows; it raises when either sweep raises. *)
Theorem X5_sweep_pads_app
  (num : Type) (N : Number num)
  (ps1 ps2 : list (LandingPad num)) (t l : num) (distances frequencies : list num) :
  run_full_study (mkTradeStudy (ps1 ++ ps2) t l) distances frequencies
  = (rs1 <- run_full_study (mkTradeStudy ps1 t l) distances frequencies ;;
     rs2 <- run_full_study (mkTradeStudy ps2 t l) distances frequencies ;;
     Ok (rs1 ++ rs2)).
Proof.
  rewrite !run_full_study_traverse. cbn [pads vehicle_thrust].
  now rewrite list_prod_app, traverse_app.
Qed.

(** X6. The sweep reads the name, the dust coefficient and the erosion
    coefficient of a pad and the thrust of the study, and nothing else:
    changing the construction costs, the maintenance intervals (to 0 as
    well) and the lifetime changes neither the rows nor the failure. *)
Theorem X6_sweep_ignores_costs
  (num : Type) (N : Number num)
  (g : LandingPad num -> LandingPad num) (ps : list (LandingPad num))
  (t l l' : num) (distances frequencies : list num) :
  (forall p, name (g p) = name p /\
             dust_coeff (g p) = dust_coeff p /\
             erosion_coeff (g p) = erosion_coeff p) ->
  run_full_study (mkTradeStudy (map g ps) t l') distances frequencies
  = run_full_study (mkTradeStudy ps t l) distances frequencies.
Proof.
  intros Hg. unfold run_full_study. cbn [pads vehicle_thrust].
  rewrite for_each_map.
  apply for_each_ext. intros p acc.
  apply for_each_ext. intros d acc'.
  apply for_each_ext. intros f acc''.
  destruct (Hg p) as (Hn & Hd & He).
  unfold calculate_dust_deposition, calculate_erosion.
  now rewrite Hn, Hd, He.
Qed.

(** ** The data handed to the plot *)

Section Plot.
Context {num : Type}.
Variable trisurf_error : Surface num -> option exception.

(** The inner loop keeps, in order, the rows that bear the name. *)
Lemma plot_inner_loop (n : string) (results : list (Row num)) (sx sy sz : list num) :
  fold_left (fun lists result =>
    let '(solar_distances, frequencies, dust_solar) := lists in
    if String.eqb (Pad result) n
    then (solar_distances ++ [Solar_Distance result],
          frequencies ++ [Frequency result],
          dust_solar ++ [Dust_Solar result])
    else (solar_distances, frequencies, dust_solar))
  results (sx, sy, sz)
  = (sx ++ map Solar_Distance (filter (fun r => String.eqb (Pad r) n) results),
     sy ++ map Frequency (filter (fun r => String.eqb (Pad r) n) results),
     sz ++ map Dust_Solar (filter (fun r => String.eqb (Pad r) n) results)).
Proof.
  revert sx sy sz.
  induction results as [| r results IH]; intros sx sy sz; simpl.
  - now rewrite !app_nil_r.
  - destruct (String.eqb (Pad r) n); rewrite IH; simpl.
    + now rewrite <- !app_assoc.
    + reflexivity.
Qed.

(** The call attempted for a pad: its surface, or the exception of
    matplotlib. *)
Definition attempt (results : list (Row num)) (pad : LandingPad num)
  : result (Surface num) :=
  match trisurf_error (surface_of results (name pad)) with
  | Some e => Raise e
  | None => Ok (surface_of results (name pad))
  end.

Lemma plot_3d_results_attempts (self : TradeStudy num) (results : list (Row num)) :
  plot_3d_results trisurf_error self results
  = traverse (attempt results) (pads self).
Proof.
  unfold plot_3d_results.
  rewrite (for_each_ext _
             (fun pad ax => s <- attempt results pad ;; Ok (ax ++ [s]))).
  - rewrite for_each_collect.
    destruct (traverse (attempt results) (pads self)); reflexivity.
  - intros pad ax. rewrite plot_inner_loop.
    unfold plot_trisurf, attempt, surface_of. simpl.
    destruct (trisurf_error _); reflexivity.
Qed.

Lemma attempt_ok_iff (results : list (Row num)) (pad : LandingPad num)
      (s : Surface num) :
  attempt results pad = Ok s
  <-> trisurf_error (surface_of results (name pad)) = None /\
      s = surface_of results (name pad).
Proof.
  unfold attempt. destruct (trisurf_error _).
  - split; [discriminate | intros [H _]; discriminate].
  - split; [intros [= <-]; now split | intros [_ ->]; reflexivity].
Qed.

End Plot.

Section Selection.
Context {A B C : Type}.

Lemma Forall2_filter (R : A -> B -> Prop) (fa : A -> bool) (fb : B -> bool)
      (xs : list A) (ys : list B) :
  (forall x y, R x y -> fa x = fb y) ->
  Forall2 R xs ys -> Forall2 R (filter fa xs) (filter fb ys).
Proof.
  intros Hf H. induction H as [| x y xs ys Hxy _ IH]; simpl; [constructor |].
  rewrite <- (Hf x y Hxy). destruct (fa x); [now constructor | assumption].
Qed.

Lemma Forall2_map_eq (R : A -> B -> Prop) (g : A -> C) (h : B -> C)
      (xs : list A) (ys : list B) :
  (forall x y, R x y -> h y = g x) ->
  Forall2 R xs ys -> map h ys = map g xs.
Proof.
  intros Hgh H. induction H as [| x y xs ys Hxy _ IH]; simpl; [reflexivity |].
  now rewrite IH, (Hgh x y Hxy).
Qed.

Lemma filter_row (g : A -> bool) (x : A) (ys : list B) :
  filter (fun xy : A * B => g (fst xy)) (map (fun y => (x, y)) ys)
  = if g x then map (fun y => (x, y)) ys else [].
Proof.
  induction ys as [| y ys IH]; simpl; [now destruct (g x) |].
  rewrite IH. now destruct (g x).
Qed.

Lemma filter_list_prod_l (g : A -> bool) (xs : list A) (ys : list B) :
  filter (fun xy => g (fst xy)) (list_prod xs ys) = list_prod (filter g xs) ys.
Proof.
  induction xs as [| x xs IH]; simpl; [reflexivity |].
  rewrite filter_app, IH, filter_row. now destruct (g x).
Qed.

End Selection.

Lemma Forall2_map_map {A B C D : Type} (R : C -> B -> Prop) (Q : A -> D -> Prop)
      (g : A -> C) (h : B -> D) (xs : list A) (ys : list B) :
  (forall x y, R (g x) y -> Q x (h y)) ->
  Forall2 R (map g xs) ys -> Forall2 Q xs (map h ys).
Proof.
  intros HRQ. revert ys.
  induction xs as [| x xs IH]; intros ys H; simpl in H.
  - inversion H. constructor.
  - inversion H as [| ? y ? ys' Hxy Hrest]; subst. simpl.
    constructor; [now apply HRQ | now apply IH].
Qed.

Lemma filter_const_false {A : Type} (f : A -> bool) (xs : list A) :
  (forall x, In x xs -> f x = false) -> filter f xs = [].
Proof.
  induction xs as [| x xs IH]; intros Hf; simpl; [reflexivity |].
  rewrite (Hf x (or_introl eq_refl)). apply IH.
  intros y Hy. apply Hf. now right.
Qed.

Lemma filter_name_unique {num : Type} (p : LandingPad num) (ps : list (LandingPad num)) :
  NoDup (map name ps) -> In p ps ->
  filter (fun q => String.eqb (name q) (name p)) ps = [p].
Proof.
  induction ps as [| q ps IH]; intros Hnd Hin; [destruct Hin |].
  simpl in Hnd. inversion Hnd as [| ? ? Hq Hnd']; subst. simpl.
  destruct Hin as [-> | Hin].
  - rewrite String.eqb_refl. f_equal.
    apply filter_const_false. intros q' Hq'.
    apply String.eqb_neq. intros Heq. apply Hq. rewrite <- Heq. now apply in_map.
  - destruct (String.eqb_spec (name q) (name p)) as [Heq | _].
    + elim Hq. rewrite Heq. now apply in_map.
    + now apply IH.
Qed.

(** In a sweep that returns, the rows of a name are the rows of the
    points of the pads that bear it, in order. *)
Lemma run_full_study_rows_of_name {num : Type} {N : Number num}
      (self : TradeStudy num) (distances frequencies : list num)
      (rs : list (Row num)) (n : string) :
  run_full_study self distances frequencies = Ok rs ->
  Forall2 (fun pdf r => point (vehicle_thrust self) pdf = Ok r)
          (list_prod (filter (fun q => String.eqb (name q) n) (pads self))
                     (list_prod distances frequencies))
          (filter (fun r => String.eqb (Pad r) n) rs).
Proof.
  intros Hrun. apply run_full_study_ok_iff in Hrun.
  rewrite <- (filter_list_prod_l (fun q => String.eqb (name q) n)).
  apply Forall2_filter; [| assumption].
  intros pdf r Hr. apply point_ok_inv in Hr.
  destruct Hr as (_ & _ & _ & _ & _ & _ & -> & _). reflexivity.
Qed.



(** X11. After a sweep that returns, in a plot that returns, the series
    of the call made for a pad have [c * |distances| * |frequencies|]
    points each, where [c] counts the pads of the study that bear its
    name: pads that share a name are plotted on top of one another, each
    with the rows of all of them. *)
Theorem X11_plot_shared_names
  (num : Type) (N : Number num) (trisurf_error : Surface num -> option exception)
  (self : TradeStudy num) (distances frequencies : list num)
  (rs : list (Row num)) (calls : list (Surface num))
  (i : nat) (pad : LandingPad num) :
  run_full_study self distances frequencies = Ok rs ->
  plot_3d_results trisurf_error self rs = Ok calls ->
  nth_error (pads self) i = Some pad ->
  exists s,
    nth_error calls i = Some s /\
    label s = name pad /\
    length (surface_x s) = length (surface_z s) /\
    length (surface_y s) = length (surface_z s) /\
    length (surface_z s)
    = (length (filter (fun q => String.eqb (name q) (name pad)) (pads self))
       * (length distances * length frequencies))%nat.
Proof.
  intros Hrun Hplot Hi.
  rewrite plot_3d_results_attempts in Hplot. apply traverse_ok_iff in Hplot.
  destruct (Forall2_nth _ _ _ _ _ Hplot Hi) as (s & Hs & Hattempt).
  apply attempt_ok_iff in Hattempt. destruct Hattempt as [_ ->].
  exists (surface_of rs (name pad)). split; [assumption |].
  unfold surface_of. simpl. rewrite !length_map.
  repeat split.
  rewrite <- (Forall2_length (run_full_study_rows_of_name _ _ _ _ (name pad) Hrun)).
  now rewrite !length_prod.
Qed.

Lemma point_distance {num : Type} {N : Number num}
      (t : num) (pdf : LandingPad num * (num * num)) (r : Row num) :
  point t pdf = Ok r -> Solar_Distance r = fst (snd pdf).
Proof.
  intros Hr. apply point_ok_inv in Hr.
  now destruct Hr as (_ & _ & _ & _ & _ & _ & _ & Hd & _).
Qed.

Lemma point_frequency {num : Type} {N : Number num}
      (t : num) (pdf : LandingPad num * (num * num)) (r : Row num) :
  point t pdf = Ok r -> Frequency r = snd (snd pdf).
Proof.
  intros Hr. apply point_ok_inv in Hr.
  now destruct Hr as (_ & _ & _ & _ & _ & _ & _ & _ & Hf).
Qed.

Lemma point_dust {num : Type} {N : Number num}
      (t : num) (pdf : LandingPad num * (num * num)) (r : Row num) :
  point t pdf = Ok r ->
  exists q, calculate_dust_deposition (fst pdf) t (fst (snd pdf)) = Ok q /\
            py_mul q (snd (snd pdf)) = Ok (Dust_Solar r).
Proof.
  intros Hr. apply point_ok_inv in Hr.
  destruct Hr as (q & _ & Hq & Hdust & _). now exists q.
Qed.

(** X12. After a sweep that returns, over pads with distinct names, in a
    plot that returns, the call made for a pad plots exactly the rows of
    that pad in the order of the sweep: the distances and the
    frequencies of the product of the two axes, and at each of its points
    the deposition returned by [calculate_dust_deposition] multiplied by
    the frequency. *)
Theorem X12_plot_distinct_names
  (num : Type) (N : Number num) (trisurf_error : Surface num -> option exception)
  (self : TradeStudy num) (distances frequencies : list num)
  (rs : list (Row num)) (calls : list (Surface num))
  (i : nat) (pad : LandingPad num) :
  NoDup (map name (pads self)) ->
  run_full_study self distances frequencies = Ok rs ->
  plot_3d_results trisurf_error self rs = Ok calls ->
  nth_error (pads self) i = Some pad ->
  exists s,
    nth_error calls i = Some s /\
    label s = name pad /\
    surface_x s = map fst (list_prod distances frequencies) /\
    surface_y s = map snd (list_prod distances frequencies) /\
    Forall2 (fun df z =>
               exists q,
                 calculate_dust_deposition pad (vehicle_thrust self) (fst df)
                 = Ok q /\
                 py_mul q (snd df) = Ok z)
            (list_prod distances frequencies) (surface_z s).
Proof.
  intros Hnd Hrun Hplot Hi.
  rewrite plot_3d_results_attempts in Hplot. apply traverse_ok_iff in Hplot.
  destruct (Forall2_nth _ _ _ _ _ Hplot Hi) as (s & Hs & Hattempt).
  apply attempt_ok_iff in Hattempt. destruct Hattempt as [_ ->].
  exists (surface_of rs (name pad)). split; [assumption |].
  pose proof (run_full_study_rows_of_name _ _ _ _ (name pad) Hrun) as Hrows.
  rewrite (filter_name_unique pad (pads self) Hnd (nth_error_In _ _ Hi)) in Hrows.
  simpl in Hrows. rewrite app_nil_r in Hrows.
  unfold surface_of. simpl. split; [reflexivity |]. split; [| split].
  - rewrite (Forall2_map_eq _ (fun pdf => fst (snd pdf)) Solar_Distance _ _
               (point_distance (vehicle_thrust self)) Hrows).
    now rewrite map_map.
  - rewrite (Forall2_map_eq _ (fun pdf => snd (snd pdf)) Frequency _ _
               (point_frequency (vehicle_thrust self)) Hrows).
    now rewrite map_map.
  - apply (Forall2_map_map _ _ _ _ _ _
             (fun df r Hr => point_dust (vehicle_thrust self) (pad, df) r Hr)
             Hrows).
Qed.


(** * The theorems on the sample configuration *)

Local Open Scope nat_scope.

Definition rows_of {num : Type} (r : result (list (Row num))) : list (Row num) :=
  match r with Ok rs => rs | Raise _ => [] end.


Definition two_rows : list (Row float) :=
  Eval vm_compute in
    rows_of (run_full_study two_pads [30; 40]%float [5; 10]%float).

Definition twin_rows : list (Row float) :=
  Eval vm_compute in
    rows_of (run_full_study twins [30; 40]%float [5; 10]%float).



Lemma C3_cardinality_witness :
  pads sample_study <> [] /\ sample_distances <> [] /\ sample_frequencies <> [] /\
  Forall (fun d => exists square,
              py_pow2 d = Ok square /\ (square =? 0)%float = false)
         sample_distances /\
  exists rs,
    run_full_study sample_study sample_distances sample_frequencies = Ok rs /\
    length rs = 80%nat.
Proof.
  assert (Hsq : Forall (fun d => exists square,
                          py_pow2 d = Ok square /\ (square =? 0)%float = false)
                       sample_distances).
  { repeat constructor.
    - exists 900%float. now split.
    - exists 1600%float. now split.
    - exists 2500%float. now split.
    - exists 3600%float. now split.
    - exists 4900%float. now split. }
  repeat (split; [first [exact Hsq | discriminate] |]).
  exact (proj1 (proj2 C3_cardinality) sample_study sample_distances
           sample_frequencies
           ltac:(discriminate) ltac:(discriminate) ltac:(discriminate) Hsq).
Defined.

Lemma C4_nested_order_witness :
  run_full_study two_pads [30; 40]%float [5; 10]%float = Ok two_rows /\
  exists r0 r1 r2,
    nth_error two_rows 0 = Some r0 /\
    nth_error two_rows 1 = Some r1 /\
    nth_error two_rows 2 = Some r2 /\
    (Pad r0, Solar_Distance r0, Frequency r0) = (name BRP, 30%float, 5%float) /\
    (Pad r1, Solar_Distance r1, Frequency r1) = (name BRP, 30%float, 10%float) /\
    (Pad r2, Solar_Distance r2, Frequency r2) = (name BRP, 40%float, 5%float).
Proof.
  assert (Hrun : run_full_study two_pads [30; 40]%float [5; 10]%float
                 = Ok two_rows) by reflexivity.
  split; [exact Hrun |].
  destruct (C4_nested_order float _ _ _ _ _ Hrun) as [_ Hnth].
  destruct (Hnth 0 0 0 BRP 30%float 5%float)%nat
    as (r0 & H0 & Hp0 & Hd0 & Hf0); try reflexivity.
  destruct (Hnth 0 0 1 BRP 30%float 10%float)%nat
    as (r1 & H1 & Hp1 & Hd1 & Hf1); try reflexivity.
  destruct (Hnth 0 1 0 BRP 40%float 5%float)%nat
    as (r2 & H2 & Hp2 & Hd2 & Hf2); try reflexivity.
  exists r0, r1, r2.
  repeat split; first [exact H0 | exact H1 | exact H2 | congruence].
Defined.

Lemma C5_zero_distance_raises_witness :
  pads sample_study <> [] /\ sample_frequencies <> [] /\
  In 0%float [30; 0; 50]%float /\ py_is_zero 0%float = true /\
  run_full_study sample_study [30; 0; 50]%float sample_frequencies
  = Raise ZeroDivisionError.
Proof.
  assert (Hin : In 0%float [30; 0; 50]%float) by (right; left; reflexivity).
  repeat (split; [first [exact Hin | discriminate | reflexivity] |]).
  destruct (proj1 C5_zero_distance_raises float _ _ sample_study
              [30; 0; 50]%float sample_frequencies 0%float
              ltac:(discriminate) ltac:(discriminate) Hin eq_refl)
    as (_ & _ & Hzde & _).
  apply (Hzde BRP [HSP; BP; HMP] [30%float] [50%float] (0.02 * 40)%float);
    try reflexivity.
  intros d f [<- | []] Hf.
  exists (float_row 40%float 900%float (BRP, (30%float, f))).
  now apply float_point.
Defined.


Lemma C7_inverse_square_witness :
  (0 < frac 50 1)%Qc /\
  exists r r2,
    run_full_study (mkTradeStudy [BRP_exact] (frac 40 1) (frac 120 1))
                   [frac 50 1; (frac 2 1 * frac 50 1)%Qc] [frac 10 1]
    = Ok [r; r2] /\
    Dust_Solar r2 = (Dust_Solar r / frac 4 1)%Qc.
Proof.
  split; [reflexivity |].
  apply (C7_inverse_square BRP_exact (frac 40 1) (frac 120 1) (frac 50 1)
           (frac 10 1)).
  reflexivity.
Defined.


Lemma C9_first_failure_witness :
  run_full_study (mkTradeStudy [BRP] 40%float 120%float)
                 [30; 0x1p600; 0]%float [10%float]
  = Raise OverflowError /\
  exists before pdf after,
    list_prod [BRP] (list_prod [30; 0x1p600; 0]%float [10%float])
    = before ++ pdf :: after /\
    Forall (fun x => exists r, point 40%float x = Ok r) before /\
    point 40%float pdf = Raise OverflowError.
Proof.
  assert (Hrun : run_full_study (mkTradeStudy [BRP] 40%float 120%float)
                   [30; 0x1p600; 0]%float [10%float]
                 = Raise OverflowError) by reflexivity.
  split; [exact Hrun |].
  exact (proj1 (proj1 C9_first_failure float _ _ _ _ _) Hrun).
Defined.

Lemma C10_empty_axis_witness :
  (pads sample_study = [] \/ sample_distances = [] \/ [] = @nil float) /\
  run_full_study sample_study sample_distances [] = Ok [].
Proof.
  split; [right; right; reflexivity |].
  apply (C10_empty_axis float _ sample_study sample_distances []).
  right; right; reflexivity.
Defined.

Lemma X6_sweep_ignores_costs_witness :
  (forall p, name (no_costs p) = name p /\
             dust_coeff (no_costs p) = dust_coeff p /\
             erosion_coeff (no_costs p) = erosion_coeff p) /\
  run_full_study (mkTradeStudy (map no_costs [BRP; HSP; BP; HMP]) 40%float 0%float)
                 sample_distances sample_frequencies
  = run_full_study (mkTradeStudy [BRP; HSP; BP; HMP] 40%float 120%float)
                   sample_distances sample_frequencies.
Proof.
  assert (Hg : forall p, name (no_costs p) = name p /\
                         dust_coeff (no_costs p) = dust_coeff p /\
                         erosion_coeff (no_costs p) = erosion_coeff p)
    by (intros p; repeat split).
  split; [exact Hg |].
  apply (X6_sweep_ignores_costs float _ no_costs [BRP; HSP; BP; HMP] 40%float
           120%float 0%float sample_distances sample_frequencies Hg).
Defined.

Lemma X11_plot_shared_names_witness :
  run_full_study twins [30; 40]%float [5; 10]%float = Ok twin_rows /\
  plot_3d_results needs_three_points twins twin_rows
  = Ok (map (fun pad => surface_of twin_rows (name pad)) (pads twins)) /\
  nth_error (pads twins) 2 = Some BRP /\
  exists s,
    nth_error (map (fun pad => surface_of twin_rows (name pad)) (pads twins)) 2
    = Some s /\
    label s = name BRP /\
    length (surface_z s) = 8%nat.
Proof.
  assert (Hrun : run_full_study twins [30; 40]%float [5; 10]%float = Ok twin_rows)
    by reflexivity.
  assert (Hplot : plot_3d_results needs_three_points twins twin_rows
                  = Ok (map (fun pad => surface_of twin_rows (name pad)) (pads twins)))
    by reflexivity.
  split; [exact Hrun |]. split; [exact Hplot |]. split; [reflexivity |].
  destruct (X11_plot_shared_names float _ needs_three_points twins
              [30; 40]%float [5; 10]%float twin_rows _ 2 BRP Hrun Hplot eq_refl)
    as (s & Hs & Hl & _ & _ & Hlen).
  exists s. now repeat split.
Defined.

Lemma X12_plot_distinct_names_witness :
  NoDup (map name (pads two_pads)) /\
  run_full_study two_pads [30; 40]%float [5; 10]%float = Ok two_rows /\
  plot_3d_results needs_three_points two_pads two_rows
  = Ok (map (fun pad => surface_of two_rows (name pad)) (pads two_pads)) /\
  nth_error (pads two_pads) 1 = Some HSP /\
  exists s,
    nth_error (map (fun pad => surface_of two_rows (name pad)) (pads two_pads)) 1
    = Some s /\
    label s = name HSP /\
    surface_x s = [30; 30; 40; 40]%float /\
    surface_y s = [5; 10; 5; 10]%float.
Proof.
  assert (Hnd : NoDup (map name (pads two_pads))).
  { simpl. constructor; [intros [H | []]; discriminate H |].
    constructor; [intros [] | constructor]. }
  assert (Hrun : run_full_study two_pads [30; 40]%float [5; 10]%float = Ok two_rows)
    by reflexivity.
  assert (Hplot : plot_3d_results needs_three_points two_pads two_rows
                  = Ok (map (fun pad => surface_of two_rows (name pad))
                            (pads two_pads)))
    by reflexivity.
  split; [exact Hnd |]. split; [exact Hrun |]. split; [exact Hplot |].
  split; [reflexivity |].
  destruct (X12_plot_distinct_names float _ needs_three_points two_pads
              [30; 40]%float [5; 10]%float two_rows _ 1 HSP Hnd Hrun Hplot eq_refl)
    as (s & Hs & Hl & Hx & Hy & _).
  exists s. now repeat split.
Defined.

